(** * scripts/check-openssl.py: the openssl dependency checker

    A shallow embedding of the script and the properties of its observable
    behaviour: the text it writes to standard output, the exit status of
    the process and the one child process it starts. *)

From Stdlib Require Import ZArith List String Ascii Bool Lia.
Import ListNotations.

Open Scope string_scope.
Open Scope Z_scope.

(** ** Python [str] operations used by the script

    Text is a [string]: the characters of a Python [str] in their UTF-8
    encoding.  The only text searched for is ASCII, and an ASCII byte never
    lies inside the encoding of another character, so searching the
    encoding finds what searching the characters finds. *)

Module PyStr.

(** [s.startswith(p)] *)
Fixpoint startswith (s p : string) {struct p} : bool :=
  match p with
  | EmptyString => true
  | String c p' =>
      match s with
      | EmptyString => false
      | String d s' => Ascii.eqb c d && startswith s' p'
      end
  end.

(** [needle in hay]: some suffix of [hay] starts with [needle]. *)
Fixpoint contains (needle hay : string) : bool :=
  startswith hay needle
  || match hay with
     | EmptyString => false
     | String _ hay' => contains needle hay'
     end.

(** The line terminator [print] appends. *)
Definition NL : string := String (ascii_of_nat 10) EmptyString.

(** The escape character, written [\033] in the source. *)
Definition ESC : ascii := ascii_of_nat 27.

End PyStr.

Import PyStr.

(** ** The interpreter and the operating system around the script *)

(** What the operating system answers when asked to run a command to
    completion: the child ran and left an exit status (negative when a
    signal killed it) and the text of its two output streams, or the child
    could not be started at all. *)
Inductive Child : Type :=
| Exited (status : Z) (out err : string)
| NotStarted.

Definition OS : Type := list string -> Child.

(** One call of [subprocess.run], as issued. *)
Record Invocation : Type := {
  inv_args : list string;
  inv_capture_output : bool;
  inv_text : bool;
  inv_check : bool
}.

(** [subprocess.CompletedProcess], for a call that captures text. *)
Record CompletedProcess : Type := {
  args : list string;
  returncode : Z;
  stdout : string;
  stderr : string
}.

(** The exceptions that can leave the script. *)
Inductive Exn : Type :=
| SystemExit (code : Z)
| CalledProcessError (status : Z)
| OSError.

(** The state of the running process: the text written to [sys.stdout] so
    far and the child processes requested so far, oldest first. *)
Record Proc : Type := {
  sys_stdout : string;
  spawned : list Invocation
}.

Definition fresh : Proc := {| sys_stdout := EmptyString; spawned := [] |}.

(** A Python computation: it reads the operating system, updates the process
    state and either returns a value or raises. *)
Definition Py (A : Type) : Type := OS -> Proc -> (Exn + A) * Proc.

Definition ret {A : Type} (a : A) : Py A :=
  fun _ p => (inr a, p).

Definition bind {A B : Type} (m : Py A) (k : A -> Py B) : Py B :=
  fun os p =>
    match m os p with
    | (inl e, p') => (inl e, p')
    | (inr a, p') => k a os p'
    end.

Notation "x <- m ;; k" := (bind m (fun x => k))
  (at level 61, m at next level, right associativity).
Notation "m ;; k" := (bind m (fun _ => k))
  (at level 61, right associativity).

(** [print(s)]: writes [s] and a newline to [sys.stdout]. *)
Definition print (s : string) : Py unit :=
  fun _ p =>
    (inr tt, {| sys_stdout := sys_stdout p ++ s ++ NL; spawned := spawned p |}).

(** [sys.exit(code)]: raises [SystemExit]. *)
Definition sys_exit (code : Z) : Py unit :=
  fun _ p => (inl (SystemExit code), p).

(** [subprocess.run(argv, capture_output=..., text=..., check=...)]: starts
    the child, waits for it, and returns what it left.  Only [check=True]
    turns a non-zero exit status into an exception. *)
Definition subprocess_run (argv : list string)
    (capture_output text check : bool) : Py CompletedProcess :=
  fun os p =>
    let call := {| inv_args := argv; inv_capture_output := capture_output;
                   inv_text := text; inv_check := check |} in
    let p' := {| sys_stdout := sys_stdout p; spawned := spawned p ++ [call] |} in
    match os argv with
    | NotStarted => (inl OSError, p')
    | Exited status out err =>
        if check && negb (status =? 0)
        then (inl (CalledProcessError status), p')
        else (inr {| args := argv; returncode := status;
                     stdout := out; stderr := err |}, p')
    end.

(** ** The script *)

Inductive Colors : Type := GREEN | RED | RESET.

(** The value of a member of the [StrEnum], which is also what an f-string
    formats it to. *)
Definition value (c : Colors) : string :=
  match c with
  | GREEN => String ESC "[92m"
  | RED => String ESC "[91m"
  | RESET => String ESC "[0m"
  end.

Definition colored_print (message : string) (color : Colors) : Py unit :=
  print (value color ++ message ++ value RESET).

Definition check_openssl_dependency : Py unit :=
  result <- subprocess_run ["cargo"; "tree"; "-i"; "openssl"; "--workspace"]
              true true false ;;
  (if returncode result =? 0 then
     colored_print "Error: openssl is part of the dependencies tree" RED ;;
     print (stdout result) ;;
     sys_exit 1
   else ret tt) ;;
  if contains "package ID specification `openssl` did not match any packages"
       (stderr result)
  then colored_print "Success: openssl is not part of the dependencies tree." GREEN
  else
    colored_print "Error: Unexpected error message." RED ;;
    print (stderr result) ;;
    sys_exit 1.

(** The module body when run as a script ([__name__ == "__main__"]). *)
Definition main : Py unit := check_openssl_dependency.

(** The exit status the interpreter ends with: 0 when the script runs to its
    end, the code of a [SystemExit], 1 for any other uncaught exception. *)
Definition exit_status (r : Exn + unit) : Z :=
  match r with
  | inr _ => 0
  | inl (SystemExit code) => code
  | inl _ => 1
  end.

(** What one run of the script leaves behind. *)
Record Run : Type := {
  printed : string;
  exit_code : Z;
  commands : list Invocation
}.

Definition run_script (os : OS) : Run :=
  let '(r, p) := main os fresh in
  {| printed := sys_stdout p; exit_code := exit_status r; commands := spawned p |}.

(** ** Names for the pieces of the run *)

Definition CARGO_TREE : list string :=
  ["cargo"; "tree"; "-i"; "openssl"; "--workspace"].

Definition NOT_FOUND : string :=
  "package ID specification `openssl` did not match any packages".

Definition MSG_FORBIDDEN : string :=
  "Error: openssl is part of the dependencies tree".

Definition MSG_SUCCESS : string :=
  "Success: openssl is not part of the dependencies tree.".

Definition MSG_UNEXPECTED : string :=
  "Error: Unexpected error message.".

(** A status line: a message between a colour code and the reset code,
    ended by the newline of [print]. *)
Definition status_line (color : Colors) (message : string) : string :=
  value color ++ message ++ value RESET ++ NL.

(** An operating system in which the query ends as given, whatever else it
    does. *)
Definition tool_answers (status : Z) (out err : string) : OS :=
  fun _ => Exited status out err.

(** An operating system that can start nothing but the query. *)
Definition only_query (answer : Child) : OS :=
  fun argv =>
    if list_eq_dec string_dec argv CARGO_TREE then answer else NotStarted.

(** The one call the script makes. *)
Definition THE_CALL : Invocation :=
  {| inv_args := CARGO_TREE; inv_capture_output := true;
     inv_text := true; inv_check := false |}.

(** ** The three outcomes of the specification *)

Inductive Outcome : Type := Forbidden | Absent | UnexpectedError.

(** The classification as the specification words it: exit status 0 is
    Forbidden; otherwise standard error containing the not-found text is
    Absent, and anything else is UnexpectedError. *)
Definition spec_classify (status : Z) (out err : string) : Outcome :=
  if status =? 0 then Forbidden
  else if contains NOT_FOUND err then Absent
  else UnexpectedError.

(** What the specification has each outcome print and exit with. *)
Definition spec_report (o : Outcome) (out err : string) : string * Z :=
  match o with
  | Forbidden => (status_line RED MSG_FORBIDDEN ++ out ++ NL, 1)
  | Absent => (status_line GREEN MSG_SUCCESS, 0)
  | UnexpectedError => (status_line RED MSG_UNEXPECTED ++ err ++ NL, 1)
  end.

(** A run shows outcome [o] when its text and exit code are those of [o]. *)
Definition shows (r : Run) (o : Outcome) (out err : string) : Prop :=
  (printed r, exit_code r) = spec_report o out err.

(** The outcome read back from the status line of a run, when there is one. *)
Definition outcome_of (r : Run) : option Outcome :=
  if startswith (printed r) (status_line RED MSG_FORBIDDEN) then Some Forbidden
  else if startswith (printed r) (status_line GREEN MSG_SUCCESS) then Some Absent
  else if startswith (printed r) (status_line RED MSG_UNEXPECTED)
       then Some UnexpectedError
  else None.

(** ** Process states reached from a given one *)

(** The state after [text] has been written to [sys.stdout]. *)
Definition wrote (p : Proc) (text : string) : Proc :=
  {| sys_stdout := sys_stdout p ++ text; spawned := spawned p |}.

(** The state after the query has been issued. *)
Definition called (p : Proc) : Proc :=
  {| sys_stdout := sys_stdout p; spawned := spawned p ++ [THE_CALL] |}.

(** The run read off a final result and state. *)
Definition run_of (r : Exn + unit) (p : Proc) : Run :=
  {| printed := sys_stdout p; exit_code := exit_status r; commands := spawned p |}.

(** [needle] occurs somewhere inside [hay]. *)
Definition substring_of (needle hay : string) : Prop :=
  exists pre post, hay = pre ++ needle ++ post.

(** The number of line terminators in a text. *)
Fixpoint newlines (s : string) : nat :=
  match s with
  | EmptyString => O
  | String c s' => ((if Ascii.eqb c (ascii_of_nat 10) then 1 else 0) + newlines s')%nat
  end.

(** * Properties *)

(** ** Strings *)

Lemma startswith_spec (p s : string) :
  startswith s p = true <-> exists post, s = p ++ post.
Proof.
  revert s; induction p as [|c p IH]; intros s; simpl.
  - split; [intros _; now exists s | reflexivity].
  - destruct s as [|d s].
    + split; [discriminate | intros [post H]; discriminate H].
    + rewrite andb_true_iff, Ascii.eqb_eq, IH. split.
      * intros [-> [post ->]]. now exists post.
      * intros [post H]. injection H as -> ->. split; [reflexivity | now exists post].
Qed.

Lemma contains_spec (needle hay : string) :
  contains needle hay = true <-> exists pre post, hay = pre ++ needle ++ post.
Proof.
  induction hay as [|d hay IH].
  - simpl. rewrite orb_false_r, startswith_spec. split.
    + intros [post H]. now exists EmptyString, post.
    + intros [[|c pre] [post H]]; [now exists post | discriminate H].
  - cbn [contains]. rewrite orb_true_iff, startswith_spec, IH. split.
    + intros [[post H] | [pre [post H]]].
      * now exists EmptyString, post.
      * exists (String d pre), post. simpl. now rewrite H.
    + intros [[|c pre] [post H]].
      * left. now exists post.
      * right. simpl in H. injection H as _ ->. now exists pre, post.
Qed.

Lemma append_assoc (a b c : string) : (a ++ b) ++ c = a ++ b ++ c.
Proof.
  induction a as [|x a IH]; simpl; [reflexivity | now rewrite IH].
Qed.

(** ** The primitives, as state transformers *)

Lemma wrote_wrote (p : Proc) (s t : string) :
  wrote (wrote p s) t = wrote p (s ++ t).
Proof.
  unfold wrote; simpl. now rewrite append_assoc.
Qed.

Lemma print_wrote (s : string) (os : OS) (p : Proc) :
  print s os p = (inr tt, wrote p (s ++ NL)).
Proof. reflexivity. Qed.

Lemma colored_print_wrote (message : string) (color : Colors) (os : OS) (p : Proc) :
  colored_print message color os p = (inr tt, wrote p (status_line color message)).
Proof.
  unfold colored_print, status_line. rewrite print_wrote.
  now rewrite !append_assoc.
Qed.

Lemma bind_ok {A B : Type} (m : Py A) (k : A -> Py B) (os : OS) (p p' : Proc) (a : A) :
  m os p = (inr a, p') -> bind m k os p = k a os p'.
Proof. intros H. unfold bind. now rewrite H. Qed.

Lemma bind_raise {A B : Type} (m : Py A) (k : A -> Py B) (os : OS) (p p' : Proc) (e : Exn) :
  m os p = (inl e, p') -> bind m k os p = (inl e, p').
Proof. intros H. unfold bind. now rewrite H. Qed.

Lemma subprocess_run_exited (argv : list string) (capture_output text : bool)
    (os : OS) (p : Proc) (status : Z) (out err : string) :
  os argv = Exited status out err ->
  subprocess_run argv capture_output text false os p =
  (inr {| args := argv; returncode := status; stdout := out; stderr := err |},
   {| sys_stdout := sys_stdout p;
      spawned := spawned p ++ [{| inv_args := argv;
                                  inv_capture_output := capture_output;
                                  inv_text := text; inv_check := false |}] |}).
Proof.
  intros H. unfold subprocess_run. rewrite H. reflexivity.
Qed.

(** With [check=True] the same call raises on a non-zero status. *)
Lemma subprocess_run_check_raises (argv : list string) (capture_output text : bool)
    (os : OS) (p : Proc) (status : Z) (out err : string) :
  os argv = Exited status out err -> status <> 0 ->
  fst (subprocess_run argv capture_output text true os p) =
  inl (CalledProcessError status).
Proof.
  intros H Hs. unfold subprocess_run. rewrite H.
  apply Z.eqb_neq in Hs. now rewrite Hs.
Qed.

(** ** The three paths through [check_openssl_dependency], from any state *)

Ltac enter_check H :=
  unfold check_openssl_dependency;
  rewrite (bind_ok _ _ _ _ _ _ (subprocess_run_exited _ true true _ _ _ _ _ H));
  cbn [returncode stdout stderr].

Lemma check_zero (os : OS) (p : Proc) (out err : string) :
  os CARGO_TREE = Exited 0 out err ->
  check_openssl_dependency os p =
  (inl (SystemExit 1), wrote (called p) (status_line RED MSG_FORBIDDEN ++ out ++ NL)).
Proof.
  intros H. enter_check H.
  apply bind_raise. cbn [Z.eqb].
  rewrite (bind_ok _ _ _ _ _ _ (colored_print_wrote _ _ _ _)).
  rewrite (bind_ok _ _ _ _ _ _ (print_wrote _ _ _)).
  unfold sys_exit. now rewrite wrote_wrote.
Qed.

Lemma check_found (os : OS) (p : Proc) (status : Z) (out err : string) :
  os CARGO_TREE = Exited status out err ->
  status <> 0 ->
  contains NOT_FOUND err = true ->
  check_openssl_dependency os p =
  (inr tt, wrote (called p) (status_line GREEN MSG_SUCCESS)).
Proof.
  intros H Hs Hc. enter_check H.
  apply Z.eqb_neq in Hs. rewrite Hs.
  rewrite (bind_ok _ _ _ (called p) (called p) tt) by reflexivity.
  fold NOT_FOUND. rewrite Hc. apply colored_print_wrote.
Qed.

Lemma check_other (os : OS) (p : Proc) (status : Z) (out err : string) :
  os CARGO_TREE = Exited status out err ->
  status <> 0 ->
  contains NOT_FOUND err = false ->
  check_openssl_dependency os p =
  (inl (SystemExit 1), wrote (called p) (status_line RED MSG_UNEXPECTED ++ err ++ NL)).
Proof.
  intros H Hs Hc. enter_check H.
  apply Z.eqb_neq in Hs. rewrite Hs.
  rewrite (bind_ok _ _ _ (called p) (called p) tt) by reflexivity.
  fold NOT_FOUND. rewrite Hc.
  rewrite (bind_ok _ _ _ _ _ _ (colored_print_wrote _ _ _ _)).
  rewrite (bind_ok _ _ _ _ _ _ (print_wrote _ _ _)).
  unfold sys_exit. now rewrite wrote_wrote.
Qed.

Lemma check_not_started (os : OS) (p : Proc) :
  os CARGO_TREE = NotStarted ->
  check_openssl_dependency os p = (inl OSError, called p).
Proof.
  intros H. unfold check_openssl_dependency.
  apply bind_raise. unfold subprocess_run.
  change (os ["cargo"; "tree"; "-i"; "openssl"; "--workspace"]) with (os CARGO_TREE).
  now rewrite H.
Qed.

(** ** Whole runs of the script *)

Lemma run_script_run_of (os : OS) :
  run_script os =
  run_of (fst (check_openssl_dependency os fresh))
         (snd (check_openssl_dependency os fresh)).
Proof.
  unfold run_script, main. now destruct (check_openssl_dependency os fresh).
Qed.

Lemma contains_substring_of (needle hay : string) :
  contains needle hay = true <-> substring_of needle hay.
Proof. apply contains_spec. Qed.

Lemma not_contains_substring_of (needle hay : string) :
  contains needle hay = false <-> ~ substring_of needle hay.
Proof.
  rewrite <- contains_substring_of. destruct (contains needle hay); split;
    congruence.
Qed.

(** The script refines the classification of the specification. *)
Lemma run_script_exited (os : OS) (status : Z) (out err : string) :
  os CARGO_TREE = Exited status out err ->
  run_script os =
  {| printed := fst (spec_report (spec_classify status out err) out err);
     exit_code := snd (spec_report (spec_classify status out err) out err);
     commands := [THE_CALL] |}.
Proof.
  intros H. rewrite run_script_run_of. unfold spec_classify.
  destruct (Z.eqb_spec status 0) as [-> | Hs].
  - now rewrite (check_zero _ _ _ _ H).
  - destruct (contains NOT_FOUND err) eqn:Hc.
    + now rewrite (check_found _ _ _ _ _ H Hs Hc).
    + now rewrite (check_other _ _ _ _ _ H Hs Hc).
Qed.

Lemma spec_report_inj (o o' : Outcome) (out err : string) :
  spec_report o out err = spec_report o' out err -> o = o'.
Proof.
  destruct o, o'; intros H; try reflexivity; cbn in H; discriminate H.
Qed.

Lemma shows_classified (os : OS) (status : Z) (out err : string) :
  os CARGO_TREE = Exited status out err ->
  shows (run_script os) (spec_classify status out err) out err.
Proof.
  intros H. unfold shows. rewrite (run_script_exited _ _ _ _ H). cbn [printed exit_code].
  now destruct (spec_report _ out err).
Qed.

Lemma outcome_of_classified (os : OS) (status : Z) (out err : string) :
  os CARGO_TREE = Exited status out err ->
  outcome_of (run_script os) = Some (spec_classify status out err).
Proof.
  intros H. rewrite (run_script_exited _ _ _ _ H).
  destruct (spec_classify status out err); reflexivity.
Qed.

Lemma exactly_one_of (os : OS) (status : Z) (out err : string) :
  os CARGO_TREE = Exited status out err ->
  shows (run_script os) (spec_classify status out err) out err
  /\ forall o, shows (run_script os) o out err -> o = spec_classify status out err.
Proof.
  intros H. pose proof (shows_classified _ _ _ _ H) as Hc. split; [exact Hc |].
  intros o Ho. unfold shows in Ho, Hc. rewrite Hc in Ho.
  symmetry. now apply spec_report_inj in Ho.
Qed.

(** * The specified behaviour *)

(** C1. Whenever the external tool exits with status 0, the script prints
    the red forbidden-dependency line, then the tool's captured standard
    output, and the process ends with exit code 1. *)
Theorem forbidden_when_status_zero (os : OS) (out err : string) :
  os CARGO_TREE = Exited 0 out err ->
  printed (run_script os) =
    (value RED ++ MSG_FORBIDDEN ++ value RESET ++ NL) ++ (out ++ NL)
  /\ exit_code (run_script os) = 1.
Proof.
  intros H. rewrite run_script_run_of, (check_zero _ _ _ _ H).
  split; reflexivity.
Qed.

Lemma forbidden_when_status_zero_witness :
  tool_answers 0 "openssl v0.10.0" "" CARGO_TREE = Exited 0 "openssl v0.10.0" ""
  /\ printed (run_script (tool_answers 0 "openssl v0.10.0" "")) =
       (value RED ++ MSG_FORBIDDEN ++ value RESET ++ NL) ++ ("openssl v0.10.0" ++ NL)
  /\ exit_code (run_script (tool_answers 0 "openssl v0.10.0" "")) = 1.
Proof.
  split; [reflexivity |].
  apply (forbidden_when_status_zero (tool_answers 0 "openssl v0.10.0" "")
           "openssl v0.10.0" "").
  reflexivity.
Defined.

(** C2. Whenever the external tool exits non-zero and its captured standard
    error contains the not-found text, the script prints the green success
    line and the process exits with code 0. *)
Theorem absent_when_not_found (os : OS) (status : Z) (out err : string) :
  os CARGO_TREE = Exited status out err ->
  status <> 0 ->
  substring_of NOT_FOUND err ->
  printed (run_script os) = value GREEN ++ MSG_SUCCESS ++ value RESET ++ NL
  /\ exit_code (run_script os) = 0.
Proof.
  intros H Hs Hc. apply contains_substring_of in Hc.
  rewrite run_script_run_of, (check_found _ _ _ _ _ H Hs Hc).
  split; reflexivity.
Qed.

Lemma absent_when_not_found_witness :
  tool_answers 1 "" ("error: " ++ NOT_FOUND ++ NL) CARGO_TREE =
    Exited 1 "" ("error: " ++ NOT_FOUND ++ NL)
  /\ 1 <> 0
  /\ substring_of NOT_FOUND ("error: " ++ NOT_FOUND ++ NL)
  /\ printed (run_script (tool_answers 1 "" ("error: " ++ NOT_FOUND ++ NL))) =
    value GREEN ++ MSG_SUCCESS ++ value RESET ++ NL
  /\ exit_code (run_script (tool_answers 1 "" ("error: " ++ NOT_FOUND ++ NL))) = 0.
Proof.
  assert (Hsub : substring_of NOT_FOUND ("error: " ++ NOT_FOUND ++ NL))
    by (exists "error: ", NL; reflexivity).
  split; [reflexivity | split; [lia | split; [exact Hsub |]]].
  apply (absent_when_not_found (tool_answers 1 "" ("error: " ++ NOT_FOUND ++ NL))
           1 "" ("error: " ++ NOT_FOUND ++ NL));
    [reflexivity | lia | exact Hsub].
Defined.

(** C3. Whenever the external tool exits non-zero and its captured standard
    error does not contain the not-found text, the script prints the red
    unexpected-error line, then the raw standard error, and the process ends
    with exit code 1. *)
Theorem unexpected_when_other_error (os : OS) (status : Z) (out err : string) :
  os CARGO_TREE = Exited status out err ->
  status <> 0 ->
  ~ substring_of NOT_FOUND err ->
  printed (run_script os) =
    (value RED ++ MSG_UNEXPECTED ++ value RESET ++ NL) ++ (err ++ NL)
  /\ exit_code (run_script os) = 1.
Proof.
  intros H Hs Hc. apply not_contains_substring_of in Hc.
  rewrite run_script_run_of, (check_other _ _ _ _ _ H Hs Hc).
  split; reflexivity.
Qed.

Lemma unexpected_when_other_error_witness :
  tool_answers 127 "" "command not found" CARGO_TREE =
    Exited 127 "" "command not found"
  /\ 127 <> 0
  /\ ~ substring_of NOT_FOUND "command not found"
  /\ printed (run_script (tool_answers 127 "" "command not found")) =
    (value RED ++ MSG_UNEXPECTED ++ value RESET ++ NL) ++ ("command not found" ++ NL)
  /\ exit_code (run_script (tool_answers 127 "" "command not found")) = 1.
Proof.
  assert (Hno : ~ substring_of NOT_FOUND "command not found")
    by (apply not_contains_substring_of; vm_compute; reflexivity).
  split; [reflexivity | split; [lia | split; [exact Hno |]]].
  apply (unexpected_when_other_error (tool_answers 127 "" "command not found")
           127 "" "command not found");
    [reflexivity | lia | exact Hno].
Defined.

(** C4. The classification is total and exclusive: for every exit status,
    standard output and standard error the external call returns, the run
    shows exactly one of Forbidden, Absent and UnexpectedError, namely the
    one the three-way rule of the specification names. *)
Theorem exactly_one_outcome (os : OS) (status : Z) (out err : string) :
  os CARGO_TREE = Exited status out err ->
  unique (fun o => shows (run_script os) o out err)
         (spec_classify status out err).
Proof.
  intros H. destruct (exactly_one_of _ _ _ _ H) as [S U].
  split; [exact S |]. intros o Ho. symmetry. now apply U.
Qed.

Lemma exactly_one_outcome_witness :
  tool_answers 127 "" "command not found" CARGO_TREE =
    Exited 127 "" "command not found"
  /\ unique (fun o => shows (run_script (tool_answers 127 "" "command not found"))
                     o "" "command not found")
         UnexpectedError.
Proof.
  split; [reflexivity |].
  apply (exactly_one_outcome (tool_answers 127 "" "command not found")
           127 "" "command not found").
  reflexivity.
Defined.

(** C5. The script is deterministic in the result of the external call: two
    runs, in any two environments, in which the call returns the same exit
    status, standard output and standard error end with the same outcome,
    the same printed text and the same exit code. *)
Theorem same_result_same_run (os1 os2 : OS) (status : Z) (out err : string) :
  os1 CARGO_TREE = Exited status out err ->
  os2 CARGO_TREE = Exited status out err ->
  outcome_of (run_script os1) = outcome_of (run_script os2)
  /\ printed (run_script os1) = printed (run_script os2)
  /\ exit_code (run_script os1) = exit_code (run_script os2).
Proof.
  intros H1 H2.
  assert (E : run_script os1 = run_script os2).
  { rewrite (run_script_exited _ _ _ _ H1). symmetry.
    apply (run_script_exited _ _ _ _ H2). }
  rewrite E. repeat split.
Qed.

Lemma same_result_same_run_witness :
  tool_answers 0 "openssl v0.10.0" "" CARGO_TREE = Exited 0 "openssl v0.10.0" ""
  /\ only_query (Exited 0 "openssl v0.10.0" "") CARGO_TREE =
       Exited 0 "openssl v0.10.0" ""
  /\ outcome_of (run_script (tool_answers 0 "openssl v0.10.0" "")) =
       outcome_of (run_script (only_query (Exited 0 "openssl v0.10.0" "")))
  /\ printed (run_script (tool_answers 0 "openssl v0.10.0" "")) =
       printed (run_script (only_query (Exited 0 "openssl v0.10.0" "")))
  /\ exit_code (run_script (tool_answers 0 "openssl v0.10.0" "")) =
       exit_code (run_script (only_query (Exited 0 "openssl v0.10.0" ""))).
Proof.
  split; [reflexivity | split; [reflexivity |]].
  apply (same_result_same_run (tool_answers 0 "openssl v0.10.0" "")
           (only_query (Exited 0 "openssl v0.10.0" ""))
           0 "openssl v0.10.0" ""); reflexivity.
Defined.

(** ** The call itself *)





(** ** Colours *)



(** ** What the outcome depends on *)

(** C8. The outcome and the exit code do not depend on the captured
    standard output: two runs whose external calls agree on the exit status
    and on standard error show the same outcome and end with the same exit
    code whatever the two standard outputs are; when the status is not 0
    the printed text is the same too, and when it is 0 each run prints the
    forbidden line followed by its own standard output. *)
Theorem stdout_does_not_decide (os1 os2 : OS) (status : Z) (out1 out2 err : string) :
  os1 CARGO_TREE = Exited status out1 err ->
  os2 CARGO_TREE = Exited status out2 err ->
  outcome_of (run_script os1) = outcome_of (run_script os2)
  /\ (forall o, shows (run_script os1) o out1 err <-> shows (run_script os2) o out2 err)
  /\ exit_code (run_script os1) = exit_code (run_script os2)
  /\ (status <> 0 -> printed (run_script os1) = printed (run_script os2))
  /\ (status = 0 ->
      printed (run_script os1) = status_line RED MSG_FORBIDDEN ++ out1 ++ NL
      /\ printed (run_script os2) = status_line RED MSG_FORBIDDEN ++ out2 ++ NL).
Proof.
  intros H1 H2.
  pose proof (exactly_one_of _ _ _ _ H1) as [S1 U1].
  pose proof (exactly_one_of _ _ _ _ H2) as [S2 U2].
  assert (C : spec_classify status out1 err = spec_classify status out2 err)
    by reflexivity.
  split; [| split; [| split; [| split]]].
  - rewrite (outcome_of_classified _ _ _ _ H1), (outcome_of_classified _ _ _ _ H2).
    now rewrite C.
  - intros o. split; intros Ho.
    + apply U1 in Ho. subst o. rewrite C. exact S2.
    + apply U2 in Ho. subst o. rewrite <- C. exact S1.
  - rewrite (run_script_exited _ _ _ _ H1), (run_script_exited _ _ _ _ H2).
    cbn [exit_code]. rewrite C. now destruct (spec_classify status out2 err).
  - intros Hs. rewrite (run_script_exited _ _ _ _ H1), (run_script_exited _ _ _ _ H2).
    cbn [printed]. unfold spec_classify. apply Z.eqb_neq in Hs. rewrite Hs.
    now destruct (contains NOT_FOUND err).
  - intros ->. rewrite (run_script_exited _ _ _ _ H1), (run_script_exited _ _ _ _ H2).
    split; reflexivity.
Qed.

Lemma stdout_does_not_decide_witness :
  tool_answers 0 "openssl v0.10.0" "" CARGO_TREE = Exited 0 "openssl v0.10.0" ""
  /\ tool_answers 0 "openssl v0.10.64" "" CARGO_TREE = Exited 0 "openssl v0.10.64" ""
  /\ outcome_of (run_script (tool_answers 0 "openssl v0.10.0" "")) =
       outcome_of (run_script (tool_answers 0 "openssl v0.10.64" ""))
  /\ exit_code (run_script (tool_answers 0 "openssl v0.10.0" "")) =
       exit_code (run_script (tool_answers 0 "openssl v0.10.64" "")).
Proof.
  split; [reflexivity | split; [reflexivity |]].
  pose proof (stdout_does_not_decide (tool_answers 0 "openssl v0.10.0" "")
                (tool_answers 0 "openssl v0.10.64" "")
                0 "openssl v0.10.0" "openssl v0.10.64" ""
                eq_refl eq_refl) as [Ho [_ [He _]]].
  split; [exact Ho | exact He].
Defined.

(** C9. In the Absent outcome the green success line is all the script
    writes: from any state, the run adds that one line and nothing else to
    standard output and returns normally, so the text does not vary with
    the captured standard output or standard error. *)
Theorem absent_prints_one_line (os : OS) (p : Proc) (status : Z) (out err : string) :
  os CARGO_TREE = Exited status out err ->
  status <> 0 ->
  substring_of NOT_FOUND err ->
  check_openssl_dependency os p =
    (inr tt, wrote (called p) (status_line GREEN MSG_SUCCESS))
  /\ printed (run_script os) = status_line GREEN MSG_SUCCESS
  /\ newlines (printed (run_script os)) = 1%nat
  /\ (forall os' status' out' err',
        os' CARGO_TREE = Exited status' out' err' ->
        status' <> 0 ->
        substring_of NOT_FOUND err' ->
        printed (run_script os') = printed (run_script os)).
Proof.
  intros H Hs Hc.
  assert (P : forall os' status' out' err',
             os' CARGO_TREE = Exited status' out' err' ->
             status' <> 0 ->
             substring_of NOT_FOUND err' ->
             printed (run_script os') = status_line GREEN MSG_SUCCESS).
  { intros os' status' out' err' H' Hs' Hc'.
    apply contains_substring_of in Hc'.
    now rewrite run_script_run_of, (check_found _ _ _ _ _ H' Hs' Hc'). }
  split; [| split; [| split]].
  - apply contains_substring_of in Hc. apply (check_found _ _ _ _ _ H Hs Hc).
  - apply (P _ _ _ _ H Hs Hc).
  - now rewrite (P _ _ _ _ H Hs Hc).
  - intros os' status' out' err' H' Hs' Hc'.
    now rewrite (P _ _ _ _ H Hs Hc), (P _ _ _ _ H' Hs' Hc').
Qed.

Lemma absent_prints_one_line_witness :
  tool_answers 101 "noise" ("error: " ++ NOT_FOUND ++ NL) CARGO_TREE =
    Exited 101 "noise" ("error: " ++ NOT_FOUND ++ NL)
  /\ 101 <> 0
  /\ substring_of NOT_FOUND ("error: " ++ NOT_FOUND ++ NL)
  /\ printed (run_script (tool_answers 101 "noise" ("error: " ++ NOT_FOUND ++ NL))) =
       status_line GREEN MSG_SUCCESS.
Proof.
  assert (Hsub : substring_of NOT_FOUND ("error: " ++ NOT_FOUND ++ NL))
    by (exists "error: ", NL; reflexivity).
  assert (Hs : 101 <> 0) by lia.
  split; [reflexivity | split; [exact Hs | split; [exact Hsub |]]].
  exact (proj1 (proj2
    (absent_prints_one_line (tool_answers 101 "noise" ("error: " ++ NOT_FOUND ++ NL))
       fresh 101 "noise" ("error: " ++ NOT_FOUND ++ NL) eq_refl Hs Hsub))).
Defined.

(** C10. Only the exit status 0 gives the Forbidden outcome.  Every other
    status, negative ones included, is classified by the substring test on
    standard error alone: the run shows Absent when the not-found text
    occurs in it and UnexpectedError when it does not, and any two non-zero
    statuses with the same standard error give the same run. *)
Theorem forbidden_only_for_zero (os : OS) (status : Z) (out err : string) :
  os CARGO_TREE = Exited status out err ->
  (shows (run_script os) Forbidden out err <-> status = 0)
  /\ (status <> 0 ->
      shows (run_script os)
        (if contains NOT_FOUND err then Absent else UnexpectedError) out err)
  /\ (status <> 0 ->
      forall os' status' out',
        os' CARGO_TREE = Exited status' out' err ->
        status' <> 0 ->
        run_script os' = run_script os).
Proof.
  intros H. destruct (exactly_one_of _ _ _ _ H) as [S U].
  unfold spec_classify in S, U.
  destruct (Z.eqb_spec status 0) as [-> | Hs].
  - split; [tauto | split; intros Hs; now contradiction Hs].
  - split; [| split].
    + split; [| tauto]. intros HF. apply U in HF.
      destruct (contains NOT_FOUND err); discriminate HF.
    + intros _. exact S.
    + intros _ os' status' out' H' Hs'.
      rewrite (run_script_exited _ _ _ _ H), (run_script_exited _ _ _ _ H').
      unfold spec_classify. apply Z.eqb_neq in Hs, Hs'. rewrite Hs, Hs'.
      now destruct (contains NOT_FOUND err).
Qed.

Lemma forbidden_only_for_zero_witness :
  tool_answers (-9) "openssl v0.10.0" "" CARGO_TREE = Exited (-9) "openssl v0.10.0" ""
  /\ (shows (run_script (tool_answers (-9) "openssl v0.10.0" "")) Forbidden
        "openssl v0.10.0" "" <-> -9 = 0)
  /\ (-9 <> 0 ->
      shows (run_script (tool_answers (-9) "openssl v0.10.0" ""))
        (if contains NOT_FOUND "" then Absent else UnexpectedError)
        "openssl v0.10.0" "").
Proof.
  split; [reflexivity |].
  pose proof (forbidden_only_for_zero (tool_answers (-9) "openssl v0.10.0" "")
                (-9) "openssl v0.10.0" "" eq_refl) as [A [B _]].
  split; [exact A | exact B].
Defined.

(** ** The scenarios of the specification *)

Example scenario_A :
  run_script (tool_answers 0 "openssl v0.10.0" "") =
  {| printed := status_line RED MSG_FORBIDDEN ++ "openssl v0.10.0" ++ NL;
     exit_code := 1; commands := [THE_CALL] |}.
Proof. reflexivity. Qed.

Example scenario_B :
  run_script (tool_answers 1 "" ("error: " ++ NOT_FOUND)) =
  {| printed := status_line GREEN MSG_SUCCESS;
     exit_code := 0; commands := [THE_CALL] |}.
Proof. reflexivity. Qed.

Example scenario_C :
  run_script (tool_answers 127 "" "command not found") =
  {| printed := status_line RED MSG_UNEXPECTED ++ "command not found" ++ NL;
     exit_code := 1; commands := [THE_CALL] |}.
Proof. reflexivity. Qed.

(** A child killed by a signal, with the dependency listed on its standard
    output, is still an unexpected error. *)
Example killed_by_signal :
  run_script (tool_answers (-9) "openssl v0.10.0" "") =
  {| printed := status_line RED MSG_UNEXPECTED ++ NL;
     exit_code := 1; commands := [THE_CALL] |}.
Proof. reflexivity. Qed.

(** When the tool cannot be started the script prints nothing and the
    interpreter ends with status 1. *)
Example tool_missing :
  run_script (fun _ => NotStarted) =
  {| printed := EmptyString; exit_code := 1; commands := [THE_CALL] |}.
Proof. reflexivity. Qed.

(** * Further properties of the script *)


Lemma substring_of_extend (needle hay pre post : string) :
  substring_of needle hay -> substring_of needle (pre ++ hay ++ post).
Proof.
  intros [a [b ->]]. exists (pre ++ a), (b ++ post).
  now rewrite !append_assoc.
Qed.

(** The four ways a run can go, by what the operating system answers. *)
Lemma run_script_cases (os : OS) :
  (os CARGO_TREE = NotStarted
   /\ run_script os = run_of (inl OSError) (called fresh))
  \/ (exists out err,
        os CARGO_TREE = Exited 0 out err
        /\ run_script os =
           run_of (inl (SystemExit 1))
             (wrote (called fresh) (status_line RED MSG_FORBIDDEN ++ out ++ NL)))
  \/ (exists status out err,
        os CARGO_TREE = Exited status out err
        /\ status <> 0 /\ contains NOT_FOUND err = true
        /\ run_script os =
           run_of (inr tt) (wrote (called fresh) (status_line GREEN MSG_SUCCESS)))
  \/ (exists status out err,
        os CARGO_TREE = Exited status out err
        /\ status <> 0 /\ contains NOT_FOUND err = false
        /\ run_script os =
           run_of (inl (SystemExit 1))
             (wrote (called fresh) (status_line RED MSG_UNEXPECTED ++ err ++ NL))).
Proof.
  rewrite run_script_run_of.
  destruct (os CARGO_TREE) as [status out err|] eqn:H.
  - destruct (Z.eqb_spec status 0) as [-> | Hs].
    + right; left. exists out, err. now rewrite (check_zero _ _ _ _ H).
    + destruct (contains NOT_FOUND err) eqn:Hc.
      * right; right; left. exists status, out, err.
        now rewrite (check_found _ _ _ _ _ H Hs Hc).
      * right; right; right. exists status, out, err.
        now rewrite (check_other _ _ _ _ _ H Hs Hc).
  - left. now rewrite (check_not_started _ _ H).
Qed.

(** X1. The process exits with code 0 exactly when the query ran, ended
    with a non-zero status and left the not-found text in its standard
    error; in every other environment the exit code is not 0. *)
Theorem exit_zero_iff_absent (os : OS) :
  exit_code (run_script os) = 0 <->
  exists status out err,
    os CARGO_TREE = Exited status out err
    /\ status <> 0
    /\ substring_of NOT_FOUND err.
Proof.
  split.
  - intros E.
    destruct (run_script_cases os)
      as [[_ R] | [(out & err & _ & R) | [(status & out & err & H & Hs & Hc & _)
                                        | (status & out & err & _ & _ & _ & R)]]];
      try (rewrite R in E; discriminate E).
    exists status, out, err. repeat split; try assumption.
    now apply contains_substring_of.
  - intros (status & out & err & H & Hs & Hc).
    apply contains_substring_of in Hc.
    now rewrite run_script_run_of, (check_found _ _ _ _ _ H Hs Hc).
Qed.

(** X2. Whatever the operating system answers, the exit code of the script
    is 0 or 1: the exit status of the child, whether 101, 127 or a negative
    signal number, is never passed on. *)
Theorem exit_code_zero_or_one (os : OS) :
  exit_code (run_script os) = 0 \/ exit_code (run_script os) = 1.
Proof.
  destruct (run_script_cases os)
    as [[_ R] | [(out & err & _ & R) | [(status & out & err & _ & _ & _ & R)
                                      | (status & out & err & _ & _ & _ & R)]]];
    rewrite R; cbn; auto.
Qed.

(** X3. When the child cannot be started the exception of [subprocess.run]
    is not caught: the script writes nothing to standard output, has asked
    for the one query, and the interpreter ends with status 1. *)
Theorem not_started_prints_nothing (os : OS) :
  os CARGO_TREE = NotStarted ->
  fst (main os fresh) = inl OSError
  /\ printed (run_script os) = EmptyString
  /\ exit_code (run_script os) = 1
  /\ commands (run_script os) = [THE_CALL].
Proof.
  intros H. unfold main.
  rewrite run_script_run_of, (check_not_started _ _ H). repeat split.
Qed.

Lemma not_started_prints_nothing_witness :
  only_query NotStarted CARGO_TREE = NotStarted
  /\ fst (main (only_query NotStarted) fresh) = inl OSError
  /\ printed (run_script (only_query NotStarted)) = EmptyString
  /\ exit_code (run_script (only_query NotStarted)) = 1
  /\ commands (run_script (only_query NotStarted)) = [THE_CALL].
Proof.
  split; [reflexivity |].
  apply (not_started_prints_nothing (only_query NotStarted)).
  reflexivity.
Defined.


(** X5. The colour of the output and the exit code agree in every
    environment: the text written starts with the green code exactly when
    the process exits with code 0. *)
Theorem green_iff_exit_zero (os : OS) :
  startswith (printed (run_script os)) (value GREEN) = true <->
  exit_code (run_script os) = 0.
Proof.
  destruct (run_script_cases os)
    as [[_ R] | [(out & err & _ & R) | [(status & out & err & _ & _ & _ & R)
                                      | (status & out & err & _ & _ & _ & R)]]];
    rewrite R; cbn; split; intros E; try reflexivity; discriminate E.
Qed.

(** X6. The success verdict survives any text around the message: once a
    standard error with the not-found text gives the green line and exit
    code 0, so does every standard error that has it with more text before
    and after, for any non-zero status and any standard output. *)
Theorem absent_with_surrounding_text
    (os : OS) (status : Z) (out err pre post : string) :
  os CARGO_TREE = Exited status out (pre ++ err ++ post) ->
  status <> 0 ->
  substring_of NOT_FOUND err ->
  run_script os =
  {| printed := status_line GREEN MSG_SUCCESS; exit_code := 0;
     commands := [THE_CALL] |}.
Proof.
  intros H Hs Hc.
  apply (substring_of_extend _ _ pre post), contains_substring_of in Hc.
  now rewrite run_script_run_of, (check_found _ _ _ _ _ H Hs Hc).
Qed.

Lemma absent_with_surrounding_text_witness :
  tool_answers 101 "" ("warning: unused manifest key" ++ NL ++
                       ("error: " ++ NOT_FOUND) ++ NL) CARGO_TREE =
    Exited 101 "" ("warning: unused manifest key" ++ NL ++
                   ("error: " ++ NOT_FOUND) ++ NL)
  /\ 101 <> 0
  /\ substring_of NOT_FOUND ("error: " ++ NOT_FOUND)
  /\ run_script (tool_answers 101 "" ("warning: unused manifest key" ++ NL ++
                                      ("error: " ++ NOT_FOUND) ++ NL)) =
     {| printed := status_line GREEN MSG_SUCCESS; exit_code := 0;
        commands := [THE_CALL] |}.
Proof.
  assert (Hsub : substring_of NOT_FOUND ("error: " ++ NOT_FOUND))
    by (exists "error: ", EmptyString; reflexivity).
  assert (Hs : 101 <> 0) by lia.
  split; [reflexivity | split; [exact Hs | split; [exact Hsub |]]].
  apply (absent_with_surrounding_text
           (tool_answers 101 "" ("warning: unused manifest key" ++ NL ++
                                 ("error: " ++ NOT_FOUND) ++ NL))
           101 "" ("error: " ++ NOT_FOUND)
           ("warning: unused manifest key" ++ NL) NL);
    [reflexivity | exact Hs | exact Hsub].
Defined.
